(** * verification/verify_background_picker.py

    A shallow embedding of the smoke-check script and of the part of the
    Playwright synchronous API it calls, followed by the properties of
    [run] and of the module body.

    The script is straight-line effectful code: it starts the Playwright
    driver in a [with] block, launches a browser, loads a page, waits for a
    button, tests the visibility of a text, prints, takes a screenshot and
    closes the browser.  Effects are threaded through an explicit [World]
    (standard output, file system, process table, log of API calls) by a
    state-and-exception monad.  Three of the calls can raise after the
    page has loaded: the readiness assertion, the strict visibility check
    and the write of the screenshot file. *)

From Stdlib Require Import ZArith Ascii.
From stdpp Require Import gmap strings list fin_maps.

(** ** Python values used by the script *)

(** Exceptions that can leave a Playwright call.  [AssertionError] is the
    Python builtin raised by a failed [expect(...)] assertion;
    [TimeoutError] and [Error] are the classes of [playwright.sync_api]
    (the former a subclass of the latter, neither related to
    [AssertionError]); the last four are the builtin [OSError]s a file
    write can end with. *)
Inductive exn : Type :=
| AssertionError
| TimeoutError
| Error
| FileExistsError
| NotADirectoryError
| IsADirectoryError
| PermissionError.

#[global] Instance exn_eq_dec : EqDecision exn.
Proof. solve_decision. Defined.

Inductive result (A : Type) : Type :=
| Ok (a : A)
| Exc (e : exn).
Arguments Ok {A} a.
Arguments Exc {A} e.

(** ** Handles of the browser-automation API *)

Record Browser : Type := { pid : nat }.
Record Page : Type := { page_browser : Browser }.

(** What a locator selects: [page.locator(css, has_text=...)] or
    [page.get_by_text(text)]. *)
Inductive Selector : Type :=
| Css (selector : string) (has_text : option string)
| ByText (text : string).

Record Locator : Type := { loc_page : Page; loc_selector : Selector }.

(** The area a screenshot covers: the visible viewport, or the whole
    scrollable page (keyword [full_page=True]). *)
Inductive Clip : Type :=
| Viewport
| FullPage.

#[global] Instance Clip_eq_dec : EqDecision Clip.
Proof. solve_decision. Defined.

(** Calls that reach the driver, in the order they are issued. *)
Inductive Call : Type :=
| CStart
| CLaunch (headless : bool) (args : list string)
| CNewPage (b : Browser)
| CGoto (pg : Page) (url : string)
| CExpectEnabled (l : Locator) (timeout : Z)
| CIsVisible (l : Locator)
| CScreenshot (pg : Page) (path : option string) (clip : Clip)
| CClose (b : Browser)
| CStop.

(** ** The application under test and the world around the script *)

(** The application served at the target URL, as far as the script can
    observe it. *)
Record App : Type := {
  (** outcome of loading a URL: [None] when the page loads *)
  navigate : string -> option exn;
  (** does the selected element reach the enabled state within that many
      milliseconds *)
  enabled_within : Selector -> Z -> bool;
  (** how many elements of the page match the selector *)
  matching : Selector -> nat;
  (** is the element matching the selector visible right now *)
  visible : Selector -> bool;
  (** the image bytes a screenshot of the given area yields *)
  render : Clip -> list Byte.byte
}.

Record World : Type := {
  app : App;
  argv : list string;              (* sys.argv; the script never reads it *)
  stdout : list string;            (* lines printed so far *)
  fs : gmap string (list Byte.byte);  (* regular files by relative path *)
  denied : string -> option exn;   (* what else the system refuses to write *)
  live : gset nat;                 (* pids of live browser processes *)
  owned : gset nat;                (* browsers launched through the driver *)
  next_pid : nat;
  driver : bool;                   (* is the Playwright driver running *)
  calls : list Call
}.

Definition set_stdout (f : list string -> list string) (w : World) : World :=
  {| app := app w; argv := argv w; stdout := f (stdout w); fs := fs w;
     denied := denied w; live := live w; owned := owned w; next_pid := next_pid w;
     driver := driver w; calls := calls w |}.

Definition set_fs (f : gmap string (list Byte.byte) -> gmap string (list Byte.byte))
    (w : World) : World :=
  {| app := app w; argv := argv w; stdout := stdout w; fs := f (fs w);
     denied := denied w; live := live w; owned := owned w; next_pid := next_pid w;
     driver := driver w; calls := calls w |}.

Definition set_procs (l o : gset nat) (n : nat) (d : bool) (w : World) : World :=
  {| app := app w; argv := argv w; stdout := stdout w; fs := fs w;
     denied := denied w; live := l; owned := o; next_pid := n; driver := d; calls := calls w |}.

Definition log (c : Call) (w : World) : World :=
  {| app := app w; argv := argv w; stdout := stdout w; fs := fs w;
     denied := denied w; live := live w; owned := owned w; next_pid := next_pid w;
     driver := driver w; calls := calls w ++ [c] |}.

(** ** State-and-exception monad *)

Definition M (A : Type) : Type := World -> result A * World.

Definition ret {A} (a : A) : M A := fun w => (Ok a, w).

Definition raise {A} (e : exn) : M A := fun w => (Exc e, w).

Definition bind {A B} (m : M A) (k : A -> M B) : M B :=
  fun w =>
    match m w with
    | (Ok a, w') => k a w'
    | (Exc e, w') => (Exc e, w')
    end.

Notation "x <~ m ;; k" := (bind m (fun x => k))
  (at level 100, m at next level, right associativity).
Notation "m ;;; k" := (bind m (fun _ => k))
  (at level 100, right associativity).

(** [with enter() as r: body] for a context manager whose [__exit__]
    returns [None]: [exit] runs when the body returns and when it raises,
    and an exception of the body is raised again afterwards. *)
Definition with_ {R A} (enter : M R) (exit : M unit) (body : R -> M A) : M A :=
  fun w =>
    match enter w with
    | (Exc e, w1) => (Exc e, w1)
    | (Ok r, w1) =>
        match body r w1 with
        | (Ok a, w2) =>
            match exit w2 with
            | (Ok _, w3) => (Ok a, w3)
            | (Exc e, w3) => (Exc e, w3)
            end
        | (Exc e, w2) =>
            match exit w2 with
            | (Ok _, w3) => (Exc e, w3)
            | (Exc e', w3) => (Exc e', w3)
            end
        end
    end.

(** ** Writing a file *)

(** The directories a relative path lies in, outermost first:
    [a/b/c.png] lies in [a] and [a/b]. *)
Fixpoint ancestors_from (pre s : string) : list string :=
  match s with
  | EmptyString => []
  | String c s' =>
      if Ascii.eqb c "/"%char
      then (if String.eqb pre "" then [] else [pre]) ++
           ancestors_from (pre +:+ "/") s'
      else ancestors_from (pre +:+ String c EmptyString) s'
  end.

Definition ancestors (path : string) : list string := ancestors_from "" path.

(** [os.makedirs(dirname(path), exist_ok=True)]: a directory that is
    missing is created; one that exists as a regular file stops the call,
    with [FileExistsError] when it is the directory to create last and
    [NotADirectoryError] when it is further out. *)
Fixpoint blocked_by (files : gmap string (list Byte.byte)) (dirs : list string)
  : option exn :=
  match dirs with
  | [] => None
  | d :: rest =>
      match files !! d with
      | Some _ =>
          Some (match rest with
                | [] => FileExistsError
                | _ :: _ => NotADirectoryError
                end)
      | None => blocked_by files rest
      end
  end.

(** Some regular file lies below [path], so [path] is a directory. *)
Definition holds_files (files : gmap string (list Byte.byte)) (path : string)
  : Prop :=
  map_Exists (fun f _ => String.prefix (path +:+ "/") f = true) files.

(** The error, if any, that creating the directories of [path] and
    opening it for writing ends with. *)
Definition write_error (files : gmap string (list Byte.byte))
    (refused : string -> option exn) (path : string) : option exn :=
  match blocked_by files (ancestors path) with
  | Some e => Some e
  | None =>
      if bool_decide (holds_files files path)
      then Some IsADirectoryError
      else refused path
  end.

(** ** The calls the script makes *)

Module Playwright.

(** The object bound by [with sync_playwright() as p]. *)
Record t : Type := { chromium : unit }.

(** [sync_playwright().__enter__()]: start the driver. *)
Definition enter : M t :=
  fun w => (Ok {| chromium := tt |},
            log CStart (set_procs (live w) (owned w) (next_pid w) true w)).

(** [__exit__]: stop the driver, which ends every browser that was
    launched through it and is still running. *)
Definition exit : M unit :=
  fun w => (Ok tt,
            log CStop (set_procs (live w ∖ owned w) ∅ (next_pid w) false w)).

(** [p.chromium.launch(headless=..., args=...)]: a new browser process. *)
Definition launch (p : t) (headless : bool) (args : list string) : M Browser :=
  fun w =>
    let b := {| pid := next_pid w |} in
    (Ok b, log (CLaunch headless args)
             (set_procs ({[pid b]} ∪ live w) ({[pid b]} ∪ owned w)
                (S (next_pid w)) (driver w) w)).

Definition new_page (b : Browser) : M Page :=
  fun w => (Ok {| page_browser := b |}, log (CNewPage b) w).

(** [page.goto(url)]: raises what the navigation raises. *)
Definition goto (pg : Page) (url : string) : M unit :=
  fun w =>
    match navigate (app w) url with
    | None => ret tt (log (CGoto pg url) w)
    | Some e => raise e (log (CGoto pg url) w)
    end.

Definition locator (pg : Page) (selector : string) (has_text : option string)
  : Locator :=
  {| loc_page := pg; loc_selector := Css selector has_text |}.

Definition get_by_text (pg : Page) (text : string) : Locator :=
  {| loc_page := pg; loc_selector := ByText text |}.

(** [expect(l).to_be_enabled(timeout=...)]: the timeout is in
    milliseconds and defaults to 5000; the assertion fails with
    [AssertionError] when the element is not enabled by then. *)
Definition expect_to_be_enabled (l : Locator) (timeout : option Z) : M unit :=
  fun w =>
    let ms := default 5000%Z timeout in
    if enabled_within (app w) (loc_selector l) ms
    then ret tt (log (CExpectEnabled l ms) w)
    else raise AssertionError (log (CExpectEnabled l ms) w).

(** What [locator.is_visible()] answers for a selector.  Locators are
    strict: with no match the answer is false, with one match it is the
    visibility of that element, and with two or more the call raises
    [Error] (strict mode violation). *)
Definition visibility (a : App) (sel : Selector) : result bool :=
  match matching a sel with
  | 0 => Ok false
  | 1 => Ok (visible a sel)
  | _ => Exc Error
  end.

Definition is_visible (l : Locator) : M bool :=
  fun w => (visibility (app w) (loc_selector l), log (CIsVisible l) w).

(** [page.screenshot(path=..., full_page=...)]: [full_page] defaults to
    false (the viewport).  The image is taken first; with a [path] the
    directories of the path are then created and the image is written to
    that file, replacing what was there.  When the directories cannot be
    created or the file cannot be written, the error of the system leaves
    the call and no file is written. *)
Definition screenshot (pg : Page) (path : option string)
    (full_page : option bool) : M (list Byte.byte) :=
  fun w =>
    let clip := if default false full_page then FullPage else Viewport in
    let img := render (app w) clip in
    let w' := log (CScreenshot pg path clip) w in
    match path with
    | None => ret img w'
    | Some f =>
        match write_error (fs w) (denied w) f with
        | Some e => raise e w'
        | None => ret img (set_fs (insert f img) w')
        end
    end.

(** [browser.close()]: end the browser process. *)
Definition close (b : Browser) : M unit :=
  fun w => (Ok tt,
            log (CClose b)
              (set_procs (live w ∖ {[pid b]}) (owned w ∖ {[pid b]})
                 (next_pid w) (driver w) w)).

End Playwright.

(** The builtin [print], one line per call. *)
Definition print (line : string) : M unit :=
  fun w => (Ok tt, set_stdout (fun out => out ++ [line]) w).

(** ** The script *)

Definition fake_ui_flag : string := "--use-fake-ui-for-media-stream".
Definition fake_device_flag : string := "--use-fake-device-for-media-stream".
Definition target_url : string := "http://localhost:5173/".
Definition start_btn_selector : Selector := Css "button" (Some "Start Recording"%string).
Definition picker_selector : Selector := ByText "Choose Background".
Definition ready_timeout : Z := 20000.
Definition fail_line : string := "FAIL: Background picker found on start screen".
Definition pass_line : string := "PASS: Background picker not on start screen".
Definition saved_line : string := "Screenshot saved.".
Definition screenshot_path : string := "verification/verification.png".

(** [def run()] *)
Definition run : M unit :=
  with_ Playwright.enter Playwright.exit (fun p =>
    browser <~ Playwright.launch p true
      ["--use-fake-ui-for-media-stream"%string;
       "--use-fake-device-for-media-stream"%string] ;;
    page <~ Playwright.new_page browser ;;
    Playwright.goto page "http://localhost:5173/" ;;;
    let start_btn :=
      Playwright.locator page "button" (Some "Start Recording"%string) in
    Playwright.expect_to_be_enabled start_btn (Some 20000%Z) ;;;
    v <~ Playwright.is_visible (Playwright.get_by_text page "Choose Background") ;;
    (if v
     then print "FAIL: Background picker found on start screen"
     else print "PASS: Background picker not on start screen") ;;;
    Playwright.screenshot page (Some "verification/verification.png"%string) None ;;;
    print "Screenshot saved." ;;;
    Playwright.close browser).

(** The module body after the imports and the [def]:
    [if __name__ == "__main__": run()]. *)
Definition module_body (name : string) : M unit :=
  if String.eqb name "__main__" then run else ret tt.

(** Exit status of the interpreter: 0 when the body returns, 1 when an
    exception leaves it uncaught. *)
Definition exit_status {A} (r : result A) : Z :=
  match r with
  | Ok _ => 0
  | Exc _ => 1
  end.

Definition set_argv (args : list string) (w : World) : World :=
  {| app := app w; argv := args; stdout := stdout w; fs := fs w;
     denied := denied w; live := live w; owned := owned w; next_pid := next_pid w;
     driver := driver w; calls := calls w |}.

(** Running the file as a script with the given command line: the
    interpreter sets [sys.argv] and executes the module as [__main__]. *)
Definition script (args : list string) : M unit :=
  fun w => module_body "__main__" (set_argv args w).

(** The application changes between two runs. *)
Definition set_app (a : App) (w : World) : World :=
  {| app := a; argv := argv w; stdout := stdout w; fs := fs w;
     denied := denied w; live := live w; owned := owned w; next_pid := next_pid w;
     driver := driver w; calls := calls w |}.

(** ** What a run is observed to do *)

(** The page at the target URL loads. *)
Definition page_loads (w : World) : Prop :=
  navigate (app w) target_url = None.

(** The readiness wait is reached and succeeds: the page loads and the
    "Start Recording" button is enabled within the bound. *)
Definition wait_succeeds (w : World) : Prop :=
  page_loads w /\
  enabled_within (app w) start_btn_selector ready_timeout = true.

(** The readiness wait is reached and the bound elapses first. *)
Definition wait_times_out (w : World) : Prop :=
  page_loads w /\
  enabled_within (app w) start_btn_selector ready_timeout = false.

(** What the visibility check of step 5 answers in this world. *)
Definition visibility_check (w : World) : result bool :=
  Playwright.visibility (app w) picker_selector.

(** The error, if any, that writing the screenshot file ends with. *)
Definition screenshot_error (w : World) : option exn :=
  write_error (fs w) (denied w) screenshot_path.

(** Step 6 is reached: the wait succeeded and the visibility check
    answered [picker_visible]. *)
Definition reaches_screenshot (w : World) (picker_visible : bool) : Prop :=
  wait_succeeds w /\ visibility_check w = Ok picker_visible.

(** Every step succeeds. *)
Definition completes (w : World) (picker_visible : bool) : Prop :=
  reaches_screenshot w picker_visible /\ screenshot_error w = None.

(** The line step 5 prints for a visibility result. *)
Definition verdict_line (picker_visible : bool) : string :=
  if picker_visible then fail_line else pass_line.

(** Lines printed, and calls issued, between two worlds. *)
Definition printed (w w' : World) : list string :=
  drop (length (stdout w)) (stdout w').

Definition issued (w w' : World) : list Call :=
  drop (length (calls w)) (calls w').

Definition is_launch (c : Call) : bool :=
  match c with CLaunch _ _ => true | _ => false end.

Definition is_new_page (c : Call) : bool :=
  match c with CNewPage _ => true | _ => false end.

Definition is_goto (c : Call) : bool :=
  match c with CGoto _ _ => true | _ => false end.

Definition is_wait (c : Call) : bool :=
  match c with CExpectEnabled _ _ => true | _ => false end.

Definition is_visibility_check (c : Call) : bool :=
  match c with CIsVisible _ => true | _ => false end.

Definition is_close (c : Call) : bool :=
  match c with CClose _ => true | _ => false end.

(** The screenshots requested by a sequence of calls: target file and
    area. *)
Fixpoint screenshot_requests (cs : list Call) : list (option string * Clip) :=
  match cs with
  | [] => []
  | CScreenshot _ path clip :: cs' => (path, clip) :: screenshot_requests cs'
  | _ :: cs' => screenshot_requests cs'
  end.

(** The handles [run] works with when started in [w]. *)
Definition the_browser (w : World) : Browser := {| pid := next_pid w |}.
Definition the_page (w : World) : Page := {| page_browser := the_browser w |}.
Definition start_btn (w : World) : Locator :=
  {| loc_page := the_page w; loc_selector := start_btn_selector |}.
Definition picker (w : World) : Locator :=
  {| loc_page := the_page w; loc_selector := picker_selector |}.

(** ** The paths through [run] *)

(** Where a run ends: at the navigation, at the readiness wait, at the
    visibility check, at the write of the screenshot, or after the last
    statement. *)
Inductive Path : Type :=
| Unreachable (e : exn)
| TimedOut
| CheckRaised (e : exn)
| WriteFailed (picker_visible : bool) (e : exn)
| Completed (picker_visible : bool).

Definition path_of (w : World) : Path :=
  match navigate (app w) target_url with
  | Some e => Unreachable e
  | None =>
      if enabled_within (app w) start_btn_selector ready_timeout
      then match visibility_check w with
           | Exc e => CheckRaised e
           | Ok b =>
               match screenshot_error w with
               | Some e => WriteFailed b e
               | None => Completed b
               end
           end
      else TimedOut
  end.

Definition path_result (p : Path) : result unit :=
  match p with
  | Unreachable e => Exc e
  | TimedOut => Exc AssertionError
  | CheckRaised e => Exc e
  | WriteFailed _ e => Exc e
  | Completed _ => Ok tt
  end.

(** The calls of each path. *)
Definition prologue_calls (w : World) : list Call :=
  [CStart; CLaunch true [fake_ui_flag; fake_device_flag];
   CNewPage (the_browser w); CGoto (the_page w) target_url].

Definition path_calls (w : World) (p : Path) : list Call :=
  prologue_calls w ++
  match p with
  | Unreachable _ => [CStop]
  | TimedOut => [CExpectEnabled (start_btn w) ready_timeout; CStop]
  | CheckRaised _ =>
      [CExpectEnabled (start_btn w) ready_timeout; CIsVisible (picker w);
       CStop]
  | WriteFailed _ _ =>
      [CExpectEnabled (start_btn w) ready_timeout; CIsVisible (picker w);
       CScreenshot (the_page w) (Some screenshot_path) Viewport; CStop]
  | Completed _ =>
      [CExpectEnabled (start_btn w) ready_timeout; CIsVisible (picker w);
       CScreenshot (the_page w) (Some screenshot_path) Viewport;
       CClose (the_browser w); CStop]
  end.

(** The lines of each path. *)
Definition path_lines (p : Path) : list string :=
  match p with
  | WriteFailed b _ => [verdict_line b]
  | Completed b => [verdict_line b; saved_line]
  | _ => []
  end.

(** The files each path leaves. *)
Definition path_files (w : World) (p : Path) : gmap string (list Byte.byte) :=
  match p with
  | Completed _ => <[screenshot_path := render (app w) Viewport]> (fs w)
  | _ => fs w
  end.

(** The world a run that takes path [p] leaves. *)
Definition world_after (w : World) (p : Path) : World :=
  {| app := app w; argv := argv w;
     stdout := stdout w ++ path_lines p;
     fs := path_files w p;
     denied := denied w;
     live := live w ∖ ({[next_pid w]} ∪ owned w);
     owned := ∅; next_pid := S (next_pid w); driver := false;
     calls := calls w ++ path_calls w p |}.

(** ** Sample worlds *)

(** An application that loads, enables the button after [enabled_at]
    milliseconds, shows the picker text (once) or not, and is taller than
    the viewport. *)
Definition sample_app (enabled_at : Z) (picker_shown : bool) : App :=
  {| navigate := fun _ => None;
     enabled_within := fun _ ms => (enabled_at <=? ms)%Z;
     matching := fun sel =>
       match sel with
       | ByText _ => if picker_shown then 1 else 0
       | Css _ _ => 1
       end;
     visible := fun sel =>
       match sel with
       | ByText _ => picker_shown
       | Css _ _ => true
       end;
     render := fun clip =>
       match clip with
       | Viewport => [Byte.x89; Byte.x50]
       | FullPage => [Byte.x89; Byte.x50; Byte.x4e; Byte.x47]
       end |}.

(** The same application with the picker text on the page twice. *)
Definition crowded_app (enabled_at : Z) : App :=
  {| navigate := navigate (sample_app enabled_at true);
     enabled_within := enabled_within (sample_app enabled_at true);
     matching := fun sel =>
       match sel with
       | ByText _ => 2
       | Css _ _ => 1
       end;
     visible := visible (sample_app enabled_at true);
     render := render (sample_app enabled_at true) |}.

(** An application nobody serves: the navigation is refused. *)
Definition down_app : App :=
  {| navigate := fun _ => Some Error;
     enabled_within := fun _ _ => false;
     matching := fun _ => 0;
     visible := fun _ => false;
     render := fun _ => [] |}.

Definition fresh_world (a : App) : World :=
  {| app := a; argv := ["verification/verify_background_picker.py"%string];
     stdout := []; fs := ∅; denied := fun _ => None;
     live := ∅; owned := ∅; next_pid := 100;
     driver := false; calls := [] |}.

(** A world that already holds an older screenshot, another file and a
    browser of somebody else. *)
Definition used_world (a : App) : World :=
  {| app := a; argv := ["verification/verify_background_picker.py"%string];
     stdout := ["earlier output"%string];
     fs := <[screenshot_path := [Byte.x00]]> {[ "README.md"%string := [Byte.x23] ]};
     denied := fun _ => None;
     live := {[ 7 ]}; owned := ∅; next_pid := 100;
     driver := false; calls := [] |}.

(** A world in which [verification] is a regular file, so the directory
    of the screenshot cannot be created. *)
Definition blocked_world (a : App) : World :=
  {| app := a; argv := ["verification/verify_background_picker.py"%string];
     stdout := [];
     fs := {[ "verification"%string := [Byte.x00] ]};
     denied := fun _ => None;
     live := ∅; owned := ∅; next_pid := 100;
     driver := false; calls := [] |}.

(** A world whose working directory is read-only. *)
Definition readonly_world (a : App) : World :=
  {| app := a; argv := ["verification/verify_background_picker.py"%string];
     stdout := []; fs := ∅; denied := fun _ => Some PermissionError;
     live := ∅; owned := ∅; next_pid := 100;
     driver := false; calls := [] |}.

(** ** The script on the sample worlds *)

Example run_pass_output :
  stdout (run (fresh_world (sample_app 1500 false))).2 =
    ["PASS: Background picker not on start screen"%string;
     "Screenshot saved."%string].
Proof. vm_compute. reflexivity. Qed.

Example run_fail_output :
  stdout (run (fresh_world (sample_app 1500 true))).2 =
    ["FAIL: Background picker found on start screen"%string;
     "Screenshot saved."%string].
Proof. vm_compute. reflexivity. Qed.

Example run_pass_calls :
  calls (run (fresh_world (sample_app 1500 false))).2 =
    [CStart;
     CLaunch true ["--use-fake-ui-for-media-stream"%string;
                   "--use-fake-device-for-media-stream"%string];
     CNewPage {| pid := 100 |};
     CGoto {| page_browser := {| pid := 100 |} |} "http://localhost:5173/";
     CExpectEnabled
       {| loc_page := {| page_browser := {| pid := 100 |} |};
          loc_selector := Css "button" (Some "Start Recording"%string) |} 20000;
     CIsVisible
       {| loc_page := {| page_browser := {| pid := 100 |} |};
          loc_selector := ByText "Choose Background" |};
     CScreenshot {| page_browser := {| pid := 100 |} |}
       (Some "verification/verification.png"%string) Viewport;
     CClose {| pid := 100 |};
     CStop].
Proof. vm_compute. reflexivity. Qed.

Example run_slow_page :
  (run (fresh_world (sample_app 20001 false))).1 = Exc AssertionError /\
  stdout (run (fresh_world (sample_app 20001 false))).2 = [].
Proof. vm_compute. split; reflexivity. Qed.

Example run_page_just_in_time :
  (run (fresh_world (sample_app 20000 false))).1 = Ok tt.
Proof. vm_compute. reflexivity. Qed.

Example run_app_down :
  (run (fresh_world down_app)).1 = Exc Error /\
  calls (run (fresh_world down_app)).2 =
    [CStart;
     CLaunch true ["--use-fake-ui-for-media-stream"%string;
                   "--use-fake-device-for-media-stream"%string];
     CNewPage {| pid := 100 |};
     CGoto {| page_browser := {| pid := 100 |} |} "http://localhost:5173/";
     CStop].
Proof. vm_compute. split; reflexivity. Qed.

Example run_keeps_foreign_browser :
  live (run (used_world (sample_app 1500 false))).2 = {[ 7 ]}.
Proof. vm_compute. reflexivity. Qed.

Example screenshot_directories :
  ancestors "verification/verification.png" = ["verification"%string] /\
  ancestors "a/b/c.png" = ["a"%string; "a/b"%string] /\
  ancestors "c.png" = [].
Proof. vm_compute. repeat split. Qed.

Example run_picker_twice :
  (run (fresh_world (crowded_app 1500))).1 = Exc Error /\
  stdout (run (fresh_world (crowded_app 1500))).2 = [] /\
  fs (run (fresh_world (crowded_app 1500))).2 = ∅.
Proof. vm_compute. repeat split. Qed.

Example run_directory_is_a_file :
  (run (blocked_world (sample_app 1500 false))).1 = Exc FileExistsError /\
  stdout (run (blocked_world (sample_app 1500 false))).2 =
    ["PASS: Background picker not on start screen"%string] /\
  fs (run (blocked_world (sample_app 1500 false))).2 !! screenshot_path = None.
Proof. vm_compute. repeat split. Qed.

Example run_read_only :
  (run (readonly_world (sample_app 1500 true))).1 = Exc PermissionError /\
  stdout (run (readonly_world (sample_app 1500 true))).2 =
    ["FAIL: Background picker found on start screen"%string].
Proof. vm_compute. repeat split. Qed.

(** ** Writing the screenshot file *)

(** Writing the screenshot does not change whether it can be written
    again: the file is not one of its own directories and does not lie
    below itself. *)
Lemma write_error_after_write (files : gmap string (list Byte.byte))
    (refused : string -> option exn) (img : list Byte.byte) :
  write_error (<[screenshot_path := img]> files) refused screenshot_path =
  write_error files refused screenshot_path.
Proof.
  unfold write_error.
  change (ancestors screenshot_path) with ["verification"%string].
  cbn [blocked_by]. rewrite lookup_insert_ne by discriminate.
  destruct (files !! "verification"%string); [reflexivity|].
  assert (Hsame : holds_files (<[screenshot_path := img]> files) screenshot_path
                  <-> holds_files files screenshot_path).
  { unfold holds_files. rewrite !map_Exists_lookup. split.
    - intros (f & x & Hf & Hp).
      destruct (decide (screenshot_path = f)) as [<- | Hne].
      + vm_compute in Hp. discriminate.
      + rewrite lookup_insert_ne in Hf by exact Hne. eauto.
    - intros (f & x & Hf & Hp). exists f, x. split; [|exact Hp].
      rewrite lookup_insert_ne; [exact Hf|].
      intros <-. vm_compute in Hp. discriminate. }
  rewrite (bool_decide_ext _ _ Hsame). reflexivity.
Qed.

(** ** Symbolic execution of [run] *)

Ltac unfold_script :=
  unfold script, module_body, run, with_, bind, print,
    Playwright.enter, Playwright.exit, Playwright.launch, Playwright.new_page,
    Playwright.goto, Playwright.locator, Playwright.get_by_text,
    Playwright.expect_to_be_enabled, Playwright.is_visible,
    Playwright.screenshot, Playwright.close,
    ret, raise, log, set_procs, set_fs, set_stdout, set_argv, set_app.

Ltac step :=
  cbn [app argv stdout fs denied live owned next_pid driver calls
       loc_page loc_selector page_browser pid from_option id fst snd].

Ltac unfold_constants :=
  unfold wait_succeeds, wait_times_out, page_loads,
    visibility_check, screenshot_error,
    world_after, path_result, path_lines, path_files, path_calls,
    prologue_calls, start_btn, picker, the_page, the_browser, verdict_line,
    target_url, start_btn_selector, picker_selector, ready_timeout,
    fake_ui_flag, fake_device_flag, fail_line, pass_line, saved_line,
    screenshot_path in *.

(** Process-table algebra: closing the browser and then stopping the
    driver, or stopping the driver alone, leaves the same processes. *)
Lemma live_after_close_stop (n : nat) (L O : gset nat) :
  (({[n]} ∪ L) ∖ {[n]}) ∖ (({[n]} ∪ O) ∖ {[n]}) = L ∖ ({[n]} ∪ O).
Proof.
  apply set_eq; intros x.
  rewrite !elem_of_difference, !elem_of_union, !elem_of_singleton.
  tauto.
Qed.

Lemma live_after_stop (n : nat) (L O : gset nat) :
  ({[n]} ∪ L) ∖ ({[n]} ∪ O) = L ∖ ({[n]} ∪ O).
Proof.
  apply set_eq; intros x.
  rewrite !elem_of_difference, !elem_of_union, !elem_of_singleton.
  tauto.
Qed.

Ltac finish_path :=
  step; rewrite <- ?(assoc_L (++)), ?app_nil_r; simpl;
  rewrite ?live_after_close_stop, ?live_after_stop; reflexivity.

(** [run], executed: the result and the world it leaves, by the path the
    observations select. *)
Lemma run_summary (w : World) :
  run w = (path_result (path_of w), world_after w (path_of w)).
Proof.
  unfold path_of. unfold_constants. unfold_script. step.
  destruct (navigate (app w) "http://localhost:5173/") as [e|]; step;
    [finish_path|].
  destruct (enabled_within (app w) (Css "button" (Some "Start Recording"%string))
              20000); step; [|finish_path].
  destruct (Playwright.visibility (app w) (ByText "Choose Background"))
    as [b|e]; step; [|finish_path].
  destruct b; step;
    destruct (write_error (fs w) (denied w) "verification/verification.png")
      as [e|]; finish_path.
Qed.

(** The path of a run from what it observes. *)
Lemma path_when_unreachable (w : World) (e : exn) :
  navigate (app w) target_url = Some e -> path_of w = Unreachable e.
Proof. intros H. unfold path_of. rewrite H. reflexivity. Qed.

Lemma path_when_not_ready (w : World) :
  wait_times_out w -> path_of w = TimedOut.
Proof. intros [Hn He]. unfold path_of. rewrite Hn, He. reflexivity. Qed.

Lemma path_when_check_raises (w : World) (e : exn) :
  wait_succeeds w -> visibility_check w = Exc e -> path_of w = CheckRaised e.
Proof.
  intros [Hn He] Hv. unfold path_of. rewrite Hn, He, Hv. reflexivity.
Qed.

Lemma path_when_write_fails (w : World) (b : bool) (e : exn) :
  reaches_screenshot w b -> screenshot_error w = Some e ->
  path_of w = WriteFailed b e.
Proof.
  intros [[Hn He] Hv] Hw. unfold path_of. rewrite Hn, He, Hv, Hw. reflexivity.
Qed.

Lemma path_when_completes (w : World) (b : bool) :
  completes w b -> path_of w = Completed b.
Proof.
  intros [[[Hn He] Hv] Hw]. unfold path_of. rewrite Hn, He, Hv, Hw.
  reflexivity.
Qed.

(** Conversely, what a path tells about the observations. *)
Lemma path_of_cases (w : World) :
  match path_of w with
  | Unreachable e => navigate (app w) target_url = Some e
  | TimedOut => wait_times_out w
  | CheckRaised e => wait_succeeds w /\ visibility_check w = Exc e
  | WriteFailed b e => reaches_screenshot w b /\ screenshot_error w = Some e
  | Completed b => completes w b
  end.
Proof.
  unfold path_of, completes, reaches_screenshot, wait_succeeds,
    wait_times_out, page_loads.
  destruct (navigate (app w) target_url); [reflexivity|].
  destruct (enabled_within (app w) start_btn_selector ready_timeout);
    [|split; reflexivity].
  destruct (visibility_check w); [|repeat split].
  destruct (screenshot_error w); repeat split.
Qed.

(** ** Reading the effects of a run *)

Lemma issued_run (w : World) : issued w (run w).2 = path_calls w (path_of w).
Proof.
  rewrite run_summary. unfold issued. cbn [snd calls world_after].
  apply drop_app_length.
Qed.

Lemma printed_run (w : World) : printed w (run w).2 = path_lines (path_of w).
Proof.
  rewrite run_summary. unfold printed. cbn [snd stdout world_after].
  apply drop_app_length.
Qed.

Lemma result_run (w : World) : (run w).1 = path_result (path_of w).
Proof. rewrite run_summary. reflexivity. Qed.

Lemma files_run (w : World) : fs (run w).2 = path_files w (path_of w).
Proof. rewrite run_summary. reflexivity. Qed.

Lemma stdout_run (w : World) :
  stdout (run w).2 = stdout w ++ path_lines (path_of w).
Proof. rewrite run_summary. reflexivity. Qed.

Lemma live_run (w : World) :
  live (run w).2 = live w ∖ ({[next_pid w]} ∪ owned w).
Proof. rewrite run_summary. reflexivity. Qed.

(** The command line reaches no decision of the script. *)
Lemma script_is_run (args : list string) (w : World) :
  script args w = run (set_argv args w).
Proof. reflexivity. Qed.

Lemma path_of_set_argv (args : list string) (w : World) :
  path_of (set_argv args w) = path_of w.
Proof. reflexivity. Qed.

(** A run leaves the application and what decides the next run's path as
    they were. *)
Lemma path_of_after_run (w : World) : path_of (run w).2 = path_of w.
Proof.
  rewrite run_summary. cbn [snd]. unfold path_of at 1.
  unfold visibility_check, screenshot_error. cbn [app fs denied world_after].
  assert (Hw : write_error (path_files w (path_of w)) (denied w) screenshot_path
               = screenshot_error w).
  { unfold screenshot_error.
    destruct (path_of w); cbn [path_files]; try reflexivity.
    apply write_error_after_write. }
  rewrite Hw. reflexivity.
Qed.

(** With the application unchanged, a second run never changes the set of
    files. *)
Lemma rerun_same_files (w : World) :
  dom (fs (run (run w).2).2) = dom (fs (run w).2).
Proof.
  rewrite (files_run (run w).2), path_of_after_run.
  rewrite run_summary. cbn [snd app fs world_after].
  destruct (path_of w); cbn [path_files fs world_after]; try reflexivity.
  rewrite !dom_insert_L.
  apply set_eq; intros f. rewrite !elem_of_union. tauto.
Qed.

(** ** Step 6: the screenshot *)

(** C1, as stated, does not hold.  On a page taller than the viewport
    the run that passes the readiness wait asks for a screenshot of the
    viewport, not of the full page, and the file it leaves is not the
    full-page image.  Nor does a successful wait mean that the screenshot
    is taken or kept: with the picker text on the page twice no screenshot
    is requested, and with [verification] a regular file the requested
    screenshot is not persisted. *)
Lemma full_page_screenshot_refuted :
  (let w := used_world (sample_app 1500 false) in
   wait_succeeds w /\
   screenshot_requests (issued w (run w).2) = [(Some screenshot_path, Viewport)] /\
   fs (run w).2 !! screenshot_path <> Some (render (app w) FullPage)) /\
  (let w := fresh_world (crowded_app 1500) in
   wait_succeeds w /\
   screenshot_requests (issued w (run w).2) = []) /\
  (let w := blocked_world (sample_app 1500 false) in
   wait_succeeds w /\
   screenshot_requests (issued w (run w).2) = [(Some screenshot_path, Viewport)] /\
   fs (run w).2 !! screenshot_path = None).
Proof.
  cbv zeta. split; [|split].
  - split; [split; reflexivity|]. split.
    + rewrite issued_run. reflexivity.
    + rewrite files_run.
      change (path_of (used_world (sample_app 1500 false)))
        with (Completed false).
      cbn [path_files]. rewrite lookup_insert_eq. discriminate.
  - split; [split; reflexivity|]. rewrite issued_run. reflexivity.
  - split; [split; reflexivity|]. split.
    + rewrite issued_run. reflexivity.
    + rewrite files_run. reflexivity.
Qed.

(** C1, amended: in every run that reaches step 6 (the readiness wait
    succeeded and the visibility check answered), [run] requests exactly
    one screenshot, of the viewport ([full_page] is left at its default),
    for [verification/verification.png].  When the file can be written,
    that path afterwards holds the captured image, whatever was there
    before, and every other file is as it was; when it cannot, the error
    leaves [run] and no file is changed. *)
Theorem viewport_screenshot_persisted (w : World) (picker_visible : bool) :
  reaches_screenshot w picker_visible ->
  screenshot_requests (issued w (run w).2) = [(Some screenshot_path, Viewport)] /\
  (screenshot_error w = None ->
   fs (run w).2 = <[screenshot_path := render (app w) Viewport]> (fs w) /\
   fs (run w).2 !! screenshot_path = Some (render (app w) Viewport) /\
   (forall f : string, f <> screenshot_path -> fs (run w).2 !! f = fs w !! f)) /\
  (forall e : exn, screenshot_error w = Some e ->
   (run w).1 = Exc e /\ fs (run w).2 = fs w).
Proof.
  intros Hreach. rewrite issued_run, files_run, result_run.
  destruct (screenshot_error w) as [e0|] eqn:Hw.
  - rewrite (path_when_write_fails w picker_visible e0 Hreach Hw).
    split; [reflexivity|]. split; [discriminate|].
    intros e [= <-]. split; reflexivity.
  - rewrite (path_when_completes w picker_visible (conj Hreach Hw)).
    cbn [path_files]. split; [reflexivity|]. split; [|discriminate].
    intros _. split; [reflexivity|]. split; [apply lookup_insert_eq|].
    intros f Hf. apply lookup_insert_ne. congruence.
Qed.

Lemma viewport_screenshot_persisted_witness :
  let w := used_world (sample_app 1500 false) in
  fs w !! screenshot_path = Some [Byte.x00] /\
  fs (run w).2 !! screenshot_path = Some [Byte.x89; Byte.x50].
Proof.
  cbv zeta. split; [reflexivity|].
  destruct (viewport_screenshot_persisted
              (used_world (sample_app 1500 false)) false) as (_ & H & _).
  { split; [split|]; reflexivity. }
  destruct (H eq_refl) as (_ & H2 & _). exact H2.
Defined.

(** ** Step 8: the browser process *)

(** C2: whatever path [run] takes -- normal return after PASS or FAIL, or
    an exception of the readiness wait, of the navigation, of the
    visibility check or of the screenshot -- when control leaves [run] the
    browser it launched is not among the live processes, no browser that
    was not alive before is alive, the driver is stopped and owns
    nothing. *)
Theorem browser_gone_on_every_exit (w : World) :
  (pid (the_browser w) ∉ live (run w).2) /\
  (live (run w).2 ⊆ live w) /\
  owned (run w).2 = ∅ /\
  driver (run w).2 = false /\
  List.filter is_launch (issued w (run w).2) =
    [CLaunch true [fake_ui_flag; fake_device_flag]].
Proof.
  rewrite issued_run, run_summary.
  cbn [snd live owned driver world_after the_browser pid].
  split.
  { rewrite elem_of_difference, elem_of_union, elem_of_singleton. tauto. }
  split.
  { intros x. rewrite elem_of_difference. tauto. }
  do 2 (split; [reflexivity|]).
  destruct (path_of w); reflexivity.
Qed.

(** On the exceptional paths [browser.close()] is not reached: the browser
    ends with the driver, when the [with] block is left. *)
Lemma timeout_path_skips_close (w : World) :
  wait_times_out w ->
  List.filter is_close (issued w (run w).2) = [] /\
  last (issued w (run w).2) = Some CStop.
Proof.
  intros H. rewrite issued_run, (path_when_not_ready w H). split; reflexivity.
Qed.

(** ** Step 5: the visibility check *)

(** C3, as stated, does not hold: with the "Choose Background" text on
    the page twice the readiness wait succeeds, the one visibility check
    is made, and it raises; [Error] leaves [run] and no verdict is
    printed. *)
Lemma check_never_raises_refuted :
  let w := fresh_world (crowded_app 1500) in
  wait_succeeds w /\
  List.filter is_visibility_check (issued w (run w).2) = [CIsVisible (picker w)] /\
  (run w).1 = Exc Error /\
  printed w (run w).2 = [].
Proof.
  cbv zeta. split; [split; reflexivity|].
  rewrite issued_run, result_run, printed_run. repeat split.
Qed.

(** C3, amended: in every run whose readiness wait succeeds, [run] checks
    the visibility of the "Choose Background" text exactly once.  When the
    check answers, the first line printed is the PASS line if the text is
    not visible and the FAIL line if it is, no other verdict line is
    printed, and the confirmation line follows when the screenshot could
    be written.  When the check raises (the text matches two or more
    elements), its error leaves [run] and nothing is printed. *)
Theorem one_visibility_check (w : World) :
  wait_succeeds w ->
  List.filter is_visibility_check (issued w (run w).2) = [CIsVisible (picker w)] /\
  loc_selector (picker w) = ByText "Choose Background" /\
  (forall picker_visible : bool,
   visibility_check w = Ok picker_visible ->
   printed w (run w).2 =
     (if picker_visible
      then "FAIL: Background picker found on start screen"%string
      else "PASS: Background picker not on start screen"%string) ::
     match screenshot_error w with
     | None => [saved_line]
     | Some _ => []
     end) /\
  (forall e : exn,
   visibility_check w = Exc e ->
   (run w).1 = Exc e /\ printed w (run w).2 = []).
Proof.
  intros Hwait. rewrite issued_run, printed_run, result_run.
  destruct (visibility_check w) as [b|e0] eqn:Hv.
  - destruct (screenshot_error w) as [e1|] eqn:Hw.
    + rewrite (path_when_write_fails w b e1 (conj Hwait Hv) Hw).
      split; [reflexivity|]. split; [reflexivity|].
      split; [|discriminate]. intros b' [= <-]. reflexivity.
    + rewrite (path_when_completes w b (conj (conj Hwait Hv) Hw)).
      split; [reflexivity|]. split; [reflexivity|].
      split; [|discriminate]. intros b' [= <-]. reflexivity.
  - rewrite (path_when_check_raises w e0 Hwait Hv).
    split; [reflexivity|]. split; [reflexivity|].
    split; [discriminate|]. intros e [= <-]. split; reflexivity.
Qed.

Lemma one_visibility_check_witness :
  let w := used_world (sample_app 1500 false) in
  printed w (run w).2 =
    ["PASS: Background picker not on start screen"%string; saved_line].
Proof.
  cbv zeta.
  destruct (one_visibility_check (used_world (sample_app 1500 false)))
    as (_ & _ & H & _); [split; reflexivity|].
  exact (H false eq_refl).
Defined.

(** ** Step 4: the readiness wait *)

(** C4, as stated, does not hold: when the button is not enabled within
    the bound, the exception that leaves [run] is the [AssertionError] of
    the failed [expect] assertion, not a [TimeoutError]. *)
Lemma wait_raises_timeout_error_refuted :
  let w := fresh_world (sample_app 30000 false) in
  wait_times_out w /\
  (run w).1 = Exc AssertionError /\
  (run w).1 <> Exc TimeoutError.
Proof.
  cbv zeta. split; [split; reflexivity|].
  rewrite result_run. split; [reflexivity | discriminate].
Qed.

(** C4, amended: once the page has loaded, [run] waits for the "Start
    Recording" button to be enabled exactly once, with a bound of 20000
    milliseconds (20 seconds); if the button is not enabled within that
    bound the [AssertionError] of the failed assertion leaves [run]
    uncaught, without a second attempt, and the script exits with a
    non-zero status. *)
Theorem wait_is_bounded_and_fatal (w : World) (args : list string) :
  page_loads w ->
  ready_timeout = (20 * 1000)%Z /\
  List.filter is_wait (issued w (run w).2) =
    [CExpectEnabled (start_btn w) 20000] /\
  loc_selector (start_btn w) = Css "button" (Some "Start Recording"%string) /\
  (enabled_within (app w) start_btn_selector ready_timeout = false ->
   (run w).1 = Exc AssertionError /\
   (script args w).1 = Exc AssertionError /\
   exit_status (script args w).1 <> 0%Z).
Proof.
  intros Hload. split; [reflexivity|].
  rewrite script_is_run, issued_run, !result_run, path_of_set_argv.
  pose proof (path_of_cases w) as Hp.
  destruct (path_of w) as [e | | e | b e | b].
  - unfold page_loads in Hload. congruence.
  - do 2 (split; [reflexivity|]). intros _. repeat split. discriminate.
  - do 2 (split; [reflexivity|]). intros Hen.
    destruct Hp as [[_ He] _]. congruence.
  - do 2 (split; [reflexivity|]). intros Hen.
    destruct Hp as [[[_ He] _] _]. congruence.
  - do 2 (split; [reflexivity|]). intros Hen.
    destruct Hp as [[[_ He] _] _]. congruence.
Qed.

Lemma wait_is_bounded_and_fatal_witness :
  let w := fresh_world (sample_app 30000 false) in
  (run w).1 = Exc AssertionError /\
  exit_status (script ["--timeout=60"%string] w).1 <> 0%Z.
Proof.
  cbv zeta.
  destruct (wait_is_bounded_and_fatal (fresh_world (sample_app 30000 false))
              ["--timeout=60"%string] eq_refl) as (_ & _ & _ & H).
  destruct (H eq_refl) as (H1 & _ & H3). split; assumption.
Defined.

(** C5: when the readiness wait times out, nothing of the later steps
    happens: no line is printed (no PASS, FAIL or confirmation line), the
    file system is the one the run started with, and neither the
    visibility check nor a screenshot is requested. *)
Theorem timeout_has_no_later_effects (w : World) :
  wait_times_out w ->
  printed w (run w).2 = [] /\
  stdout (run w).2 = stdout w /\
  fs (run w).2 = fs w /\
  screenshot_requests (issued w (run w).2) = [] /\
  List.filter is_visibility_check (issued w (run w).2) = [].
Proof.
  intros H.
  rewrite printed_run, stdout_run, files_run, issued_run.
  rewrite (path_when_not_ready w H). cbn [path_lines path_files].
  rewrite app_nil_r. repeat split.
Qed.

Lemma timeout_has_no_later_effects_witness :
  let w := used_world (sample_app 30000 true) in
  stdout (run w).2 = ["earlier output"%string] /\
  fs (run w).2 !! screenshot_path = Some [Byte.x00].
Proof.
  cbv zeta.
  destruct (timeout_has_no_later_effects (used_world (sample_app 30000 true)))
    as (_ & H1 & H2 & _); [split; reflexivity|].
  rewrite H1, H2. split; reflexivity.
Defined.

(** ** The FAIL verdict and the exit status *)

(** The exit status of the script in terms of the paths of [run]. *)
Lemma exit_status_of_script (w : World) (args : list string) :
  exit_status (script args w).1 = exit_status (path_result (path_of w)).
Proof. rewrite script_is_run, result_run, path_of_set_argv. reflexivity. Qed.

(** C6: a visible "Choose Background" text is not fatal.  When the wait
    succeeds and the check answers that the text is visible, the script
    prints the FAIL line first and still requests the screenshot; unless
    another error intervenes (the screenshot cannot be written) it then
    leaves the screenshot at its path, prints the confirmation line,
    returns normally and exits with status zero.  The exit status is
    non-zero exactly when an exception leaves [run], and the exceptions
    are those of the navigation, of the readiness wait, of the visibility
    check call and of the screenshot write -- never the verdict. *)
Theorem fail_verdict_is_not_fatal (w : World) (args : list string) :
  (reaches_screenshot w true ->
   head (printed w (script args w).2) =
     Some "FAIL: Background picker found on start screen"%string /\
   screenshot_requests (issued w (script args w).2) =
     [(Some screenshot_path, Viewport)] /\
   (screenshot_error w = None ->
    printed w (script args w).2 =
      ["FAIL: Background picker found on start screen"%string;
       "Screenshot saved."%string] /\
    fs (script args w).2 !! screenshot_path = Some (render (app w) Viewport) /\
    (script args w).1 = Ok tt /\
    exit_status (script args w).1 = 0%Z)) /\
  (exit_status (script args w).1 <> 0%Z <->
   exists e, (script args w).1 = Exc e) /\
  ((exists e, (script args w).1 = Exc e) <->
   (exists e, navigate (app w) target_url = Some e) \/
   wait_times_out w \/
   (wait_succeeds w /\ exists e, visibility_check w = Exc e) \/
   (exists b e, reaches_screenshot w b /\ screenshot_error w = Some e)).
Proof.
  rewrite script_is_run.
  change (printed w (run (set_argv args w)).2)
    with (printed (set_argv args w) (run (set_argv args w)).2).
  change (issued w (run (set_argv args w)).2)
    with (issued (set_argv args w) (run (set_argv args w)).2).
  rewrite printed_run, issued_run, files_run, result_run, path_of_set_argv.
  pose proof (path_of_cases w) as Hp.
  split; [|split].
  - intros Hreach. destruct (screenshot_error w) as [e0|] eqn:Hw.
    + rewrite (path_when_write_fails w true e0 Hreach Hw).
      split; [reflexivity|]. split; [reflexivity|]. discriminate.
    + rewrite (path_when_completes w true (conj Hreach Hw)).
      split; [reflexivity|]. split; [reflexivity|]. intros _.
      cbn [path_files path_result exit_status path_lines].
      split; [reflexivity|]. split; [apply lookup_insert_eq|].
      split; reflexivity.
  - destruct (path_result (path_of w)) as [[]|e]; cbn [exit_status].
    + split; [intros H; contradiction H; reflexivity|].
      intros [e He]. discriminate.
    + split; [intros _; eauto | intros _; discriminate].
  - destruct (path_of w) as [e | | e | b e | b]; cbn [path_result].
    + split; [eauto | eauto].
    + split; [auto | eauto].
    + split; [intros _|eauto]. destruct Hp as [Hs Hv]. eauto 6.
    + split; [intros _|eauto]. right. right. right. eauto.
    + split; [intros [e He]; discriminate|].
      destruct Hp as [[[Hn Hen] Hv] Hw].
      intros [[e He] | [[_ Ht] | [[_ [e He]] | (b' & e & [_ Hv'] & Hw')]]];
        congruence.
Qed.

Lemma fail_verdict_is_not_fatal_witness :
  let w := used_world (sample_app 1500 true) in
  printed w (script [] w).2 =
    ["FAIL: Background picker found on start screen"%string;
     "Screenshot saved."%string] /\
  exit_status (script [] w).1 = 0%Z.
Proof.
  cbv zeta.
  destruct (fail_verdict_is_not_fatal (used_world (sample_app 1500 true)) [])
    as [H _].
  destruct H as (_ & _ & H); [split; [split|]; reflexivity|].
  destruct (H eq_refl) as (H1 & _ & _ & H4). split; assumption.
Defined.

(** ** Running twice *)

(** C7: two runs in succession that both complete (the application may
    have changed to [a2] in between) request the screenshot at the same
    path [verification/verification.png]; the second replaces the image of
    the first, and the set of files after the second run is the set after
    the first. *)
Theorem rerun_overwrites_in_place (w : World) (a2 : App) (b1 b2 : bool) :
  completes w b1 ->
  completes (set_app a2 (run w).2) b2 ->
  screenshot_requests (issued w (run w).2) =
    [(Some "verification/verification.png"%string, Viewport)] /\
  screenshot_requests
    (issued (set_app a2 (run w).2) (run (set_app a2 (run w).2)).2) =
    [(Some "verification/verification.png"%string, Viewport)] /\
  dom (fs (run (set_app a2 (run w).2)).2) = dom (fs (run w).2) /\
  dom (fs (run w).2) = {[screenshot_path]} ∪ dom (fs w) /\
  fs (run (set_app a2 (run w).2)).2 =
    <[screenshot_path := render a2 Viewport]> (fs w).
Proof.
  intros H1 H2.
  rewrite (issued_run w), (issued_run (set_app a2 (run w).2)).
  rewrite (files_run (set_app a2 (run w).2)).
  rewrite (path_when_completes _ b2 H2).
  cbn [path_files path_calls app fs set_app].
  rewrite (files_run w), (path_when_completes _ b1 H1). cbn [path_files].
  split; [reflexivity|]. split; [reflexivity|].
  rewrite insert_insert_eq, !dom_insert_L. repeat split.
Qed.

Lemma rerun_overwrites_in_place_witness :
  let w := used_world (sample_app 1500 false) in
  dom (fs (run (set_app (sample_app 900 true) (run w).2)).2) = dom (fs (run w).2) /\
  dom (fs (run w).2) = {[screenshot_path]} ∪ dom (fs w).
Proof.
  cbv zeta.
  destruct (rerun_overwrites_in_place (used_world (sample_app 1500 false))
              (sample_app 900 true) false true) as (_ & _ & H3 & H4 & _).
  - split; [split; [split|]|]; reflexivity.
  - split; [split; [split|]|]; vm_compute; reflexivity.
  - split; assumption.
Defined.

(** ** Steps 1 to 3: launch and navigation *)

(** C8: on every path and for every command line, the script launches
    one browser, headless and with the two fake-media flags, opens one
    page in it and navigates that page to [http://localhost:5173/]; a
    different command line changes neither the calls nor the outcome. *)
Theorem launch_and_target_are_fixed (w : World) (args args' : list string) :
  List.filter is_launch (issued w (script args w).2) =
    [CLaunch true ["--use-fake-ui-for-media-stream"%string;
                   "--use-fake-device-for-media-stream"%string]] /\
  List.filter is_new_page (issued w (script args w).2) =
    [CNewPage (the_browser w)] /\
  List.filter is_goto (issued w (script args w).2) =
    [CGoto (the_page w) "http://localhost:5173/"] /\
  issued w (script args' w).2 = issued w (script args w).2 /\
  (script args' w).1 = (script args w).1.
Proof.
  rewrite !script_is_run.
  change (issued w (run (set_argv args w)).2)
    with (issued (set_argv args w) (run (set_argv args w)).2).
  change (issued w (run (set_argv args' w)).2)
    with (issued (set_argv args' w) (run (set_argv args' w)).2).
  rewrite !issued_run, !result_run, !path_of_set_argv.
  destruct (path_of w); repeat split.
Qed.

(** ** The [__main__] guard *)

(** C9: loaded under any name other than [__main__], the module body
    returns at once and leaves the world as it was: no browser, no file,
    no output, no call.  Under [__main__] it is [run]. *)
Theorem import_has_no_effect (name : string) (w : World) :
  name <> "__main__"%string ->
  module_body name w = (Ok tt, w) /\
  module_body "__main__" w = run w.
Proof.
  intros Hname. split; [|reflexivity].
  unfold module_body. destruct (String.eqb_spec name "__main__") as [E | _].
  - contradiction.
  - reflexivity.
Qed.

Lemma import_has_no_effect_witness :
  let w := used_world (sample_app 1500 false) in
  module_body "verify_background_picker" w = (Ok tt, w).
Proof.
  cbv zeta.
  refine (proj1 (import_has_no_effect "verify_background_picker"
                   (used_world (sample_app 1500 false)) _)).
  discriminate.
Defined.

(** ** Determinism *)

(** C10, as stated, does not hold: two executions with the same outcome
    of the readiness wait and the same result of [is_visible()] can print
    different lines, because the screenshot call of one of them fails to
    write its file. *)
Lemma same_observations_different_lines :
  let w1 := fresh_world (sample_app 1500 false) in
  let w2 := blocked_world (sample_app 1500 false) in
  wait_succeeds w1 /\ wait_succeeds w2 /\
  visibility_check w1 = Ok false /\ visibility_check w2 = Ok false /\
  printed w1 (run w1).2 = [pass_line; saved_line] /\
  printed w2 (run w2).2 = [pass_line] /\
  printed w1 (run w1).2 <> printed w2 (run w2).2.
Proof.
  cbv zeta. rewrite !printed_run.
  split; [split; reflexivity|]. split; [split; reflexivity|].
  do 4 (split; [reflexivity|]). discriminate.
Qed.

(** C10, amended: two executions of [run], in any two worlds, in which
    the calls that are reached have the same outcomes -- the navigation,
    the readiness wait, the visibility check and the write of the
    screenshot -- print the same lines in the same order, request the same
    screenshots and end the same way. *)
Theorem run_is_determined_by_observations (w1 w2 : World) :
  navigate (app w1) target_url = navigate (app w2) target_url ->
  (page_loads w1 ->
   enabled_within (app w1) start_btn_selector ready_timeout =
     enabled_within (app w2) start_btn_selector ready_timeout) ->
  (wait_succeeds w1 -> visibility_check w1 = visibility_check w2) ->
  ((exists b, reaches_screenshot w1 b) ->
   screenshot_error w1 = screenshot_error w2) ->
  printed w1 (run w1).2 = printed w2 (run w2).2 /\
  screenshot_requests (issued w1 (run w1).2) =
    screenshot_requests (issued w2 (run w2).2) /\
  (run w1).1 = (run w2).1.
Proof.
  intros Hnav Hen Hvis Hwr.
  rewrite !printed_run, !issued_run, !result_run.
  assert (Hpath : path_of w2 = path_of w1).
  { pose proof (path_of_cases w1) as Hp.
    destruct (path_of w1) as [e | | e | b e | b].
    - apply path_when_unreachable. congruence.
    - destruct Hp as [Hn He]. apply path_when_not_ready.
      split; [unfold page_loads in *|rewrite <- (Hen Hn)]; congruence.
    - destruct Hp as [[Hn He] Hv]. apply path_when_check_raises.
      + split; [unfold page_loads in *|rewrite <- (Hen Hn)]; congruence.
      + rewrite <- (Hvis (conj Hn He)). exact Hv.
    - destruct Hp as [[[Hn He] Hv] Hw]. apply path_when_write_fails.
      + split.
        * split; [unfold page_loads in *|rewrite <- (Hen Hn)]; congruence.
        * rewrite <- (Hvis (conj Hn He)). exact Hv.
      + rewrite <- Hwr; [exact Hw|]. exists b. split; [split|]; assumption.
    - destruct Hp as [[[Hn He] Hv] Hw]. apply path_when_completes.
      split; [split|].
      + split; [unfold page_loads in *|rewrite <- (Hen Hn)]; congruence.
      + rewrite <- (Hvis (conj Hn He)). exact Hv.
      + rewrite <- Hwr; [exact Hw|]. exists b. split; [split|]; assumption. }
  rewrite Hpath. destruct (path_of w1); repeat split.
Qed.

Lemma run_is_determined_by_observations_witness :
  let w1 := fresh_world (sample_app 1500 true) in
  let w2 := used_world (sample_app 900 true) in
  printed w1 (run w1).2 = printed w2 (run w2).2 /\
  screenshot_requests (issued w1 (run w1).2) =
    screenshot_requests (issued w2 (run w2).2) /\
  (run w1).1 = (run w2).1.
Proof.
  cbv zeta.
  apply (run_is_determined_by_observations
           (fresh_world (sample_app 1500 true))
           (used_world (sample_app 900 true)));
    [reflexivity | intros _; reflexivity | intros _; reflexivity
    | intros _; vm_compute; reflexivity].
Defined.

(** ** Further properties of [run] *)

Lemma run_keeps_app (w : World) : app (run w).2 = app w.
Proof. rewrite run_summary. reflexivity. Qed.

(** X1: when [page.goto] raises, that same exception leaves [run] and the
    script exits with a non-zero status; the readiness wait, the
    visibility check and the screenshot are never issued, nothing is
    printed and the file system is as it was. *)
Theorem navigation_error_propagates (w : World) (e : exn) (args : list string) :
  navigate (app w) target_url = Some e ->
  (run w).1 = Exc e /\
  exit_status (script args w).1 = 1%Z /\
  List.filter is_wait (issued w (run w).2) = [] /\
  List.filter is_visibility_check (issued w (run w).2) = [] /\
  screenshot_requests (issued w (run w).2) = [] /\
  printed w (run w).2 = [] /\
  fs (run w).2 = fs w.
Proof.
  intros H.
  rewrite exit_status_of_script, result_run, issued_run, printed_run, files_run.
  rewrite (path_when_unreachable w e H). repeat split.
Qed.

Lemma navigation_error_propagates_witness :
  (run (used_world down_app)).1 = Exc Error /\
  fs (run (used_world down_app)).2 = fs (used_world down_app).
Proof.
  destruct (navigation_error_propagates (used_world down_app) Error [] eq_refl)
    as (H1 & _ & _ & _ & _ & _ & H7).
  split; assumption.
Defined.

(** X2: [browser.close()] is issued exactly when [run] returns normally,
    and then once, on the browser that was launched; when an exception
    leaves [run] no close is issued.  On every path the first call starts
    the driver and the last call stops it. *)
Theorem close_only_on_normal_return (w : World) :
  List.filter is_close (issued w (run w).2) =
    match (run w).1 with
    | Ok _ => [CClose (the_browser w)]
    | Exc _ => []
    end /\
  head (issued w (run w).2) = Some CStart /\
  last (issued w (run w).2) = Some CStop.
Proof.
  rewrite issued_run, result_run. destruct (path_of w); repeat split.
Qed.

(** X3: on every path, [run] leaves every file other than
    [verification/verification.png] exactly as it was, and removes no
    file. *)
Theorem only_the_screenshot_file_changes (w : World) (f : string) :
  f <> screenshot_path ->
  fs (run w).2 !! f = fs w !! f /\
  dom (fs w) ⊆ dom (fs (run w).2).
Proof.
  intros Hf. rewrite files_run.
  destruct (path_of w); cbn [path_files];
    try (split; [reflexivity | intros x Hx; exact Hx]).
  split.
  - apply lookup_insert_ne. congruence.
  - rewrite dom_insert_L. intros x Hx. apply elem_of_union. right. exact Hx.
Qed.

Lemma only_the_screenshot_file_changes_witness :
  fs (run (used_world (sample_app 1500 false))).2 !! "README.md"%string =
    Some [Byte.x23].
Proof.
  destruct (only_the_screenshot_file_changes
              (used_world (sample_app 1500 false)) "README.md") as [H _];
    [discriminate|].
  rewrite H. reflexivity.
Defined.

(** X4: the line "Screenshot saved." is printed exactly when [run]
    returns normally, and whenever it is printed the screenshot was
    requested and [verification/verification.png] holds the captured
    image.  A screenshot that was requested but could not be written is
    never confirmed. *)
Theorem confirmation_iff_screenshot (w : World) :
  ("Screenshot saved."%string ∈ printed w (run w).2 <-> (run w).1 = Ok tt) /\
  ("Screenshot saved."%string ∈ printed w (run w).2 ->
   screenshot_requests (issued w (run w).2) = [(Some screenshot_path, Viewport)] /\
   fs (run w).2 !! screenshot_path = Some (render (app w) Viewport)) /\
  (forall (b : bool) (e : exn),
   reaches_screenshot w b -> screenshot_error w = Some e ->
   screenshot_requests (issued w (run w).2) = [(Some screenshot_path, Viewport)] /\
   ~ "Screenshot saved."%string ∈ printed w (run w).2).
Proof.
  rewrite printed_run, result_run, issued_run, files_run.
  split; [|split].
  - destruct (path_of w) as [e | | e | [] e | []];
      cbn [path_lines path_result]; split; intros H;
      try discriminate; try reflexivity;
      try (apply elem_of_nil in H; contradiction);
      try (apply elem_of_cons in H as [H | H];
           [discriminate | apply elem_of_nil in H; contradiction]);
      apply elem_of_cons; right; apply elem_of_cons; left; reflexivity.
  - destruct (path_of w) as [e | | e | [] e | b];
      cbn [path_lines path_files]; intros H;
      try (apply elem_of_nil in H; contradiction);
      try (apply elem_of_cons in H as [H | H];
           [discriminate | apply elem_of_nil in H; contradiction]).
    split; [reflexivity | apply lookup_insert_eq].
  - intros b e Hreach Hw. rewrite (path_when_write_fails w b e Hreach Hw).
    split; [reflexivity|]. cbn [path_lines]. intros H.
    apply elem_of_cons in H as [H | H];
      [destruct b; discriminate | apply elem_of_nil in H; contradiction].
Qed.

(** X5: with the application unchanged, running [run] a second time is
    idempotent on the file system and repeats the first run: the files are
    exactly those the first run left, the same lines are printed again and
    the run ends the same way. *)
Theorem rerun_repeats_first_run (w : World) :
  fs (run (run w).2).2 = fs (run w).2 /\
  printed (run w).2 (run (run w).2).2 = printed w (run w).2 /\
  stdout (run (run w).2).2 =
    stdout w ++ printed w (run w).2 ++ printed w (run w).2 /\
  (run (run w).2).1 = (run w).1.
Proof.
  rewrite (files_run (run w).2), (printed_run (run w).2),
    (stdout_run (run w).2), (result_run (run w).2), path_of_after_run.
  rewrite (printed_run w), (result_run w), (stdout_run w).
  rewrite run_summary. cbn [snd app fs world_after].
  split; [|split; [reflexivity|split; [|reflexivity]]].
  - destruct (path_of w); cbn [path_files]; try reflexivity.
    apply insert_insert_eq.
  - symmetry. apply (assoc_L (++)).
Qed.

(** X6: the answer of the visibility check reaches nothing but the
    verdict line.  Two runs from the same world against applications that
    agree on navigation, readiness and the rendered viewport, whose
    visibility checks both answer -- possibly differently -- issue the
    same calls, leave the same files and processes, print the same lines
    after the verdict, end the same way and exit with the same status. *)
Theorem visibility_changes_only_the_verdict
    (w : World) (a' : App) (args : list string) (b b' : bool) :
  navigate a' target_url = navigate (app w) target_url ->
  enabled_within a' start_btn_selector ready_timeout =
    enabled_within (app w) start_btn_selector ready_timeout ->
  render a' Viewport = render (app w) Viewport ->
  visibility_check w = Ok b ->
  visibility_check (set_app a' w) = Ok b' ->
  (run (set_app a' w)).1 = (run w).1 /\
  calls (run (set_app a' w)).2 = calls (run w).2 /\
  fs (run (set_app a' w)).2 = fs (run w).2 /\
  live (run (set_app a' w)).2 = live (run w).2 /\
  tail (printed (set_app a' w) (run (set_app a' w)).2) =
    tail (printed w (run w).2) /\
  exit_status (script args (set_app a' w)).1 = exit_status (script args w).1.
Proof.
  intros Hnav Hen Hren Hv Hv'.
  rewrite !exit_status_of_script, !printed_run, !result_run, !files_run,
    !live_run.
  rewrite (run_summary (set_app a' w)), (run_summary w).
  cbn [snd calls world_after set_app next_pid live owned].
  unfold path_of. rewrite Hv, Hv'. cbn [app set_app].
  rewrite Hnav, Hen.
  change (screenshot_error (set_app a' w)) with (screenshot_error w).
  destruct (navigate (app w) target_url); [repeat split|].
  destruct (enabled_within (app w) start_btn_selector ready_timeout);
    [|repeat split].
  destruct (screenshot_error w); cbn [path_files app set_app];
    rewrite ?Hren; repeat split.
Qed.

Lemma visibility_changes_only_the_verdict_witness :
  let w := used_world (sample_app 1500 false) in
  let w' := set_app (sample_app 1500 true) w in
  head (printed w (run w).2) <> head (printed w' (run w').2) /\
  fs (run w').2 = fs (run w).2 /\
  exit_status (script [] w').1 = exit_status (script [] w).1.
Proof.
  cbv zeta.
  destruct (visibility_changes_only_the_verdict
              (used_world (sample_app 1500 false)) (sample_app 1500 true) []
              false true eq_refl eq_refl eq_refl eq_refl eq_refl)
    as (_ & _ & H3 & _ & _ & H6).
  split; [|split; assumption].
  vm_compute. discriminate.
Defined.

(** X8: the output of [run] stays within its three fixed lines: every
    line it prints is the PASS line, the FAIL line or the confirmation
    line, it prints at most two lines, and never both verdicts. *)
Theorem output_within_fixed_lines (w : World) :
  Forall (fun l : string =>
            l = "PASS: Background picker not on start screen"%string \/
            l = "FAIL: Background picker found on start screen"%string \/
            l = "Screenshot saved."%string)
         (printed w (run w).2) /\
  length (printed w (run w).2) <= 2 /\
  ~ ("PASS: Background picker not on start screen"%string
       ∈ printed w (run w).2 /\
     "FAIL: Background picker found on start screen"%string
       ∈ printed w (run w).2).
Proof.
  rewrite printed_run.
  destruct (path_of w) as [e | | e | b e | b]; cbn [path_lines length].
  1-3: split; [constructor|]; split; [lia|];
       intros [Hp _]; apply elem_of_nil in Hp; contradiction.
  - split; [|split; [lia|]].
    + destruct b; constructor; auto.
    + intros [Hp Hf].
      destruct b;
        repeat (apply elem_of_cons in Hp as [Hp | Hp]; [discriminate|]);
        repeat (apply elem_of_cons in Hf as [Hf | Hf]; [discriminate|]);
        first [apply elem_of_nil in Hp | apply elem_of_nil in Hf];
        contradiction.
  - split; [|split; [lia|]].
    + destruct b; (constructor; [|constructor; [|constructor]]); auto.
    + intros [Hp Hf].
      destruct b;
        repeat (apply elem_of_cons in Hp as [Hp | Hp]; [discriminate|]);
        repeat (apply elem_of_cons in Hf as [Hf | Hf]; [discriminate|]);
        first [apply elem_of_nil in Hp | apply elem_of_nil in Hf];
        contradiction.
Qed.
